(** * solid.js: the response wrapper of [lib/solid/response.js]

    A shallow embedding of the [SolidResponse] constructor and of its
    prototype methods, over a small model of the JavaScript values the
    module handles, followed by the properties of the wrapper.

    The module is written against two collaborators that live outside the
    file: the XHR object handed to the constructor, and the header parsers
    of [lib/util/web-util].  The XHR object is a record of what the module
    reads from it; the parsers are a parameter of the development. *)

From Stdlib Require Import ZArith Ascii String List Lia.
From stdpp Require Import base option gmap strings.

Local Open Scope Z_scope.
Local Open Scope string_scope.

#[local] Set Warnings "-register-all".

(** ** JavaScript values *)

(** What the module reads from an XHR object.  [getResponseHeader] answers
    [None] where the JavaScript method answers [null]. *)
Record XMLHttpRequest (V : Type) : Type := mkXhr {
  getResponseHeader : string -> option string;
  status : Z;
  responseURL : string;
  response : V
}.

Arguments mkXhr {V} _ _ _ _.
Arguments getResponseHeader {V} _ _.
Arguments status {V} _.
Arguments responseURL {V} _.
Arguments response {V} _.

(** Numbers are the integers (status codes are the only numbers the module
    compares); a plain object is a finite map from property names. *)
Inductive value : Type :=
| VUndefined
| VNull
| VBool (b : bool)
| VNum (n : Z)
| VStr (s : string)
| VObj (props : gmap string value)
| VXhr (x : XMLHttpRequest value).

(** [ToBoolean]: the falsy values are [undefined], [null], [false], [0]
    and the empty string. *)
Definition to_boolean (v : value) : bool :=
  match v with
  | VUndefined | VNull => false
  | VBool b => b
  | VNum n => negb (Z.eqb n 0)
  | VStr s => negb (String.eqb s "")
  | VObj _ | VXhr _ => true
  end.

(** [v === s] for a string literal [s]. *)
Definition strict_eq_str (v : value) (s : string) : bool :=
  match v with
  | VStr t => String.eqb t s
  | _ => false
  end.

(** ** Outcomes *)

Inductive error : Type :=
| TypeError (msg : string)
| Thrown (e : value)
| Unsupported (what : string).

Inductive result (A : Type) : Type :=
| Ok (a : A)
| Throw (e : error).

Arguments Ok {A} _.
Arguments Throw {A} _.

(** The state a call runs in: the receiver [this] and the names of the
    response headers read so far, oldest first. *)
Record state : Type := mkState {
  this : gmap string value;
  reads : list string
}.

Definition M (A : Type) : Type := state -> result (A * state).

Definition ret {A} (a : A) : M A := fun st => Ok (a, st).

Definition bind {A B} (c : M A) (k : A -> M B) : M B :=
  fun st =>
    match c st with
    | Ok (a, st') => k a st'
    | Throw e => Throw e
    end.

Definition lift {A} (r : result A) : M A :=
  fun st =>
    match r with
    | Ok a => Ok (a, st)
    | Throw e => Throw e
    end.

Notation "'let*' x := c 'in' k" := (bind c (fun x => k))
  (at level 10, x name, c at level 100, k at level 200).
Notation "c ;; k" := (bind c (fun _ => k))
  (at level 100, k at level 200, right associativity).

(** [this.k = v] and [this.k]. *)
Definition set_this (k : string) (v : value) : M unit :=
  fun st => Ok (tt, mkState (<[k := v]> (this st)) (reads st)).

Definition get_this (k : string) : M value :=
  fun st => Ok (default VUndefined (this st !! k), st).

(** [a || b] and [a && b]: the right operand is evaluated only when the
    left one does not decide. *)
Definition js_or (a b : M value) : M value :=
  let* x := a in if to_boolean x then ret x else b.

Definition js_and (a b : M value) : M value :=
  let* x := a in if to_boolean x then b else ret x.

(** [o[k]] on a receiver that is neither [undefined] nor [null]: a missing
    property reads as [undefined].  Function-valued properties are not
    values of the model, and the index properties of strings are left out:
    the module reads neither. *)
Definition prop_of (o : value) (k : string) : value :=
  match o with
  | VObj props => default VUndefined (props !! k)
  | VStr s => if String.eqb k "length" then VNum (Z.of_nat (String.length s)) else VUndefined
  | VXhr x =>
      if String.eqb k "status" then VNum (status x)
      else if String.eqb k "responseURL" then VStr (responseURL x)
      else if String.eqb k "response" then response x
      else VUndefined
  | _ => VUndefined
  end.

(** [o[k]]: reading a property of [undefined] or [null] raises. *)
Definition get_prop (o : value) (k : string) : result value :=
  match o with
  | VUndefined | VNull => Throw (TypeError "cannot read property")
  | _ => Ok (prop_of o k)
  end.

(** The answer of [x.getResponseHeader(name)], as a value. *)
Definition header_value (x : XMLHttpRequest value) (name : string) : value :=
  match getResponseHeader x name with
  | Some s => VStr s
  | None => VNull
  end.

(** [o.getResponseHeader(name)]; the read is recorded. *)
Definition call_getResponseHeader (o : value) (name : string) : M value :=
  match o with
  | VXhr x => fun st => Ok (header_value x name, mkState (this st) (reads st ++ [name]))
  | VUndefined | VNull => lift (Throw (TypeError "cannot read property"))
  | _ => lift (Throw (TypeError "getResponseHeader is not a function"))
  end.

(** [String.prototype.toLowerCase].  Strings are byte strings here and only
    the ASCII letters are mapped; no character outside ASCII lower-cases to
    one of the letters of a verb the module compares with. *)
Definition lower_ascii (c : ascii) : ascii :=
  let n := nat_of_ascii c in
  if ((65 <=? n)%nat && (n <=? 90)%nat)%bool then ascii_of_nat (n + 32) else c.

Fixpoint lower_string (s : string) : string :=
  match s with
  | EmptyString => EmptyString
  | String c s' => String (lower_ascii c) (lower_string s')
  end.

(** [v.toLowerCase()]. *)
Definition call_toLowerCase (v : value) : result value :=
  match v with
  | VStr s => Ok (VStr (lower_string s))
  | VUndefined | VNull => Throw (TypeError "cannot read property")
  | _ => Throw (TypeError "toLowerCase is not a function")
  end.

(** [v >= n] and [v < n] against a number literal.  Only number operands
    are modelled; the conversion of another operand is [Unsupported]. *)
Definition js_ge (v : value) (n : Z) : result value :=
  match v with
  | VNum m => Ok (VBool (Z.leb n m))
  | _ => Throw (Unsupported "ToNumber")
  end.

Definition js_lt (v : value) (n : Z) : result value :=
  match v with
  | VNum m => Ok (VBool (Z.ltb m n))
  | _ => Throw (Unsupported "ToNumber")
  end.

(** ** The header parsers of [lib/util/web-util] *)

Module webUtil.
Record t : Type := make {
  parseLinkHeader : value -> result value;
  parseAllowedMethods : value -> value -> result value
}.
End webUtil.

(** ** [lib/solid/response.js] *)

(** [this.linkHeaders[k]] *)
Definition linkHeaders_at (k : string) : M value :=
  let* l := get_this "linkHeaders" in lift (get_prop l k).

(** The verb as the constructor stores it: lower case, or the empty
    string when none was given. *)
Definition normalized_method (method : value) : result value :=
  if to_boolean method then call_toLowerCase method else Ok (VStr "").

Section Response.

Variable web_util : webUtil.t.

(** [SolidResponse.prototype.parseAllowedMethods] *)
Definition parseAllowedMethods (xhrResponse method : value) : M value :=
  if strict_eq_str method "get" then
    ret (VObj ∅)
  else
    let* allow := call_getResponseHeader xhrResponse "Allow" in
    let* acceptPatch := call_getResponseHeader xhrResponse "Accept-Patch" in
    lift (webUtil.parseAllowedMethods web_util allow acceptPatch).

(** The constructor. *)
Definition SolidResponse (xhrResponse method : value) : M unit :=
  if negb (to_boolean xhrResponse) then
    set_this "xhr" VNull ;;
    set_this "user" (VStr "") ;;
    set_this "method" VNull
  else
    let* linkHeader := call_getResponseHeader xhrResponse "Link" in
    let* links :=
      js_or (lift (webUtil.parseLinkHeader web_util linkHeader)) (ret (VObj ∅)) in
    set_this "linkHeaders" links ;;
    let* method := lift (normalized_method method) in
    set_this "method" method ;;
    let* acl := linkHeaders_at "acl" in
    set_this "acl" acl ;;
    let* allowed := parseAllowedMethods xhrResponse method in
    set_this "allowedMethods" allowed ;;
    let* meta := js_or (linkHeaders_at "meta") (linkHeaders_at "describedBy") in
    set_this "meta" meta ;;
    let* type := linkHeaders_at "type" in
    set_this "type" type ;;
    let* url :=
      js_or (call_getResponseHeader xhrResponse "Location")
            (lift (get_prop xhrResponse "responseURL")) in
    set_this "url" url ;;
    let* user := js_or (call_getResponseHeader xhrResponse "User") (ret (VStr "")) in
    set_this "user" user ;;
    let* websocket :=
      js_or (call_getResponseHeader xhrResponse "Updates-Via") (ret (VStr "")) in
    set_this "websocket" websocket ;;
    set_this "xhr" xhrResponse.

(** [new SolidResponse(xhrResponse, method)]: the constructor runs on an
    empty receiver, with no header read yet. *)
Definition new_SolidResponse (xhrResponse method : value) : result state :=
  match SolidResponse xhrResponse method (mkState ∅ []) with
  | Ok (_, st) => Ok st
  | Throw e => Throw e
  end.

End Response.

(** [SolidResponse.prototype.contentType] *)
Definition contentType : M value :=
  let* xhr := get_this "xhr" in
  if to_boolean xhr then call_getResponseHeader xhr "Content-Type"
  else ret VNull.

(** [this.xhr.status] *)
Definition xhr_status : M value :=
  let* xhr := get_this "xhr" in lift (get_prop xhr "status").

(** [SolidResponse.prototype.exists] *)
Definition exists_ : M value :=
  js_and (js_and (get_this "xhr")
                 (let* s := xhr_status in lift (js_ge s 200)))
         (let* s := xhr_status in lift (js_lt s 400)).

(** [SolidResponse.prototype.isLoggedIn] *)
Definition isLoggedIn : M value :=
  get_this "user".

(** [SolidResponse.prototype.raw] *)
Definition raw : M value :=
  let* xhr := get_this "xhr" in
  if to_boolean xhr then lift (get_prop xhr "response")
  else ret VNull.

(** ** The parsers, as the specification describes them *)

Module WebUtilSpec.

Definition dquote : ascii := "034"%char.

Definition snoc (s : string) (c : ascii) : string := s ++ String c EmptyString.

(** Split at the commas that are neither inside [<...>] nor inside a
    quoted parameter. *)
Fixpoint split_entries (s : string) (in_angle in_quote : bool) (cur : string)
  : list string :=
  match s with
  | EmptyString => [cur]
  | String c s' =>
      if in_quote then split_entries s' in_angle (negb (Ascii.eqb c dquote)) (snoc cur c)
      else if in_angle then split_entries s' (negb (Ascii.eqb c ">")) false (snoc cur c)
      else if Ascii.eqb c "," then cur :: split_entries s' false false EmptyString
      else split_entries s' (Ascii.eqb c "<") (Ascii.eqb c dquote) (snoc cur c)
  end.

(** The text after the first [c], if any. *)
Fixpoint after_char (c : ascii) (s : string) : option string :=
  match s with
  | EmptyString => None
  | String d s' => if Ascii.eqb c d then Some s' else after_char c s'
  end.

(** The text before the first [c] and the text after it, if [c] occurs. *)
Fixpoint until_char (c : ascii) (s : string) : option (string * string) :=
  match s with
  | EmptyString => None
  | String d s' =>
      if Ascii.eqb c d then Some (EmptyString, s')
      else match until_char c s' with
           | Some (pre, post) => Some (String d pre, post)
           | None => None
           end
  end.

(** The text after the first occurrence of [p], if any. *)
Fixpoint after_prefix (p s : string) : option string :=
  match s with
  | EmptyString => None
  | String _ s' =>
      if String.prefix p s then Some (String.substring (String.length p) (String.length s - String.length p) s)
      else after_prefix p s'
  end.

(** A parameter value: quoted, or bare up to the next [;]. *)
Definition param_value (s : string) : option string :=
  match s with
  | EmptyString => None
  | String c s' =>
      if Ascii.eqb c dquote then
        match until_char dquote s' with
        | Some (v, _) => Some v
        | None => None
        end
      else
        match until_char ";" s with
        | Some (v, _) => Some v
        | None => Some s
        end
  end.

(** One entry [<target>; rel=...]: the relation name and the target. *)
Definition parse_entry (entry : string) : option (string * string) :=
  match after_char "<" entry with
  | None => None
  | Some rest =>
      match until_char ">" rest with
      | None => None
      | Some (target, params) =>
          match after_prefix "rel=" params with
          | None => None
          | Some v =>
              match param_value v with
              | Some rel => Some (rel, target)
              | None => None
              end
          end
      end
  end.

(** Later entries overwrite earlier ones; malformed entries are skipped. *)
Definition add_entry (rels : gmap string value) (entry : string)
  : gmap string value :=
  match parse_entry entry with
  | Some (rel, target) => <[rel := VStr target]> rels
  | None => rels
  end.

(** Modelled from the spec: [parseLinkHeader] of [lib/util/web-util],
    which is not part of the sources at hand.  A missing or empty header
    gives the empty map; the parser never fails. *)
Definition parseLinkHeader (link : value) : result value :=
  match link with
  | VStr s => Ok (VObj (fold_left add_entry (split_entries s false false EmptyString) ∅))
  | _ => Ok (VObj ∅)
  end.

(** Split at commas and spaces. *)
Fixpoint tokens (s : string) (cur : string) : list string :=
  match s with
  | EmptyString => [cur]
  | String c s' =>
      if (Ascii.eqb c "," || Ascii.eqb c " ")%bool then cur :: tokens s' EmptyString
      else tokens s' (snoc cur c)
  end.

Definition add_verb (verbs : gmap string value) (token : string)
  : gmap string value :=
  if String.eqb token EmptyString then verbs
  else <[lower_string token := VBool true]> verbs.

(** Modelled from the spec: [parseAllowedMethods] of [lib/util/web-util],
    which is not part of the sources at hand.  Every verb of [Allow] is
    set, in lower case; [patch] is set when [Accept-Patch] is not empty. *)
Definition parseAllowedMethods (allow acceptPatch : value) : result value :=
  let verbs :=
    match allow with
    | VStr s => fold_left add_verb (tokens s EmptyString) ∅
    | _ => ∅
    end in
  Ok (VObj (if to_boolean acceptPatch then <["patch" := VBool true]> verbs else verbs)).

Definition impl : webUtil.t :=
  webUtil.make parseLinkHeader parseAllowedMethods.

End WebUtilSpec.

(** ** Sample responses *)

Definition headers_of (l : list (string * string)) (name : string) : option string :=
  snd <$> List.find (fun p => String.eqb (fst p) name) l.

Definition describedBy_link : string :=
  "<a>; rel=" ++ String WebUtilSpec.dquote "describedBy" ++ String WebUtilSpec.dquote "".

Definition sample_record (hdrs : list (string * string)) (code : Z)
  : XMLHttpRequest value :=
  mkXhr (headers_of hdrs) code "https://example.org/doc" (VStr "body").

Definition sample_xhr (hdrs : list (string * string)) (code : Z) : value :=
  VXhr (sample_record hdrs code).


(** ** Reading a constructed view *)

(** The value of [a || b] once both operands are known. *)
Definition or_default (a b : value) : value :=
  if to_boolean a then a else b.

(** [view.k], read from outside. *)
Definition field (st : state) (k : string) : value :=
  default VUndefined (this st !! k).

(** The receiver the constructor leaves when no response was given. *)
Definition degraded_view : gmap string value :=
  <["method" := VNull]> (<["user" := VStr ""]> (<["xhr" := VNull]> ∅)).

(** The result of [SolidResponse.prototype.parseAllowedMethods] on an XHR
    object, and the headers it reads. *)
Definition allowed_result (w : webUtil.t) (x : XMLHttpRequest value) (method : value)
  : result value :=
  if strict_eq_str method "get" then Ok (VObj ∅)
  else webUtil.parseAllowedMethods w (header_value x "Allow") (header_value x "Accept-Patch").

Definition allowed_reads (method : value) : list string :=
  if strict_eq_str method "get" then [] else ["Allow"; "Accept-Patch"].

(** The receiver the constructor leaves for the XHR object [x], given the
    parsed [Link] header [p], the stored verb [m] and the allowed verbs [am]. *)
Definition full_view (x : XMLHttpRequest value) (p m am : value) : gmap string value :=
  let links := or_default p (VObj ∅) in
  <["xhr" := VXhr x]>
    (<["websocket" := or_default (header_value x "Updates-Via") (VStr "")]>
      (<["user" := or_default (header_value x "User") (VStr "")]>
        (<["url" := or_default (header_value x "Location") (VStr (responseURL x))]>
          (<["type" := prop_of links "type"]>
            (<["meta" := or_default (prop_of links "meta") (prop_of links "describedBy")]>
              (<["allowedMethods" := am]>
                (<["acl" := prop_of links "acl"]>
                  (<["method" := m]>
                    (<["linkHeaders" := links]> ∅))))))))).

(** The parameter domain the constructor documents: an XHR object or
    nothing for the response, a string or nothing for the verb. *)
Definition is_response (v : value) : bool :=
  match v with
  | VXhr _ => true
  | _ => negb (to_boolean v)
  end.

Definition is_verb (v : value) : bool :=
  match v with
  | VStr _ => true
  | _ => negb (to_boolean v)
  end.

(** Modelled from the spec: the contract of the header parsers of
    [lib/util/web-util], which are not part of the sources at hand.  They
    never fail, on any input. *)
Definition parsers_total (w : webUtil.t) : Prop :=
  (forall link, exists r, webUtil.parseLinkHeader w link = Ok r) /\
  (forall allow acceptPatch, exists r, webUtil.parseAllowedMethods w allow acceptPatch = Ok r).

(** The four query methods. *)
Definition queries : list (M value) := [contentType; exists_; isLoggedIn; raw].

(** The response headers the constructor reads. *)
Definition constructor_headers : list string :=
  ["Link"; "Allow"; "Accept-Patch"; "Location"; "User"; "Updates-Via"].

(** Parsers for the samples: the [Link] parser of the specification, and
    an [Allow] parser that always throws. *)
Definition throwing_allowed : webUtil.t :=
  webUtil.make WebUtilSpec.parseLinkHeader (fun _ _ => Throw (Thrown (VStr "bad Allow"))).

Definition acl_link : string :=
  "<https://ex.org/foo.acl>; rel=" ++ String WebUtilSpec.dquote "acl"
  ++ String WebUtilSpec.dquote "".

(** The fields the constructor assigns when a response is given. *)
Definition view_fields : list string :=
  ["linkHeaders"; "method"; "acl"; "allowedMethods"; "meta"; "type"; "url"; "user";
   "websocket"; "xhr"].

(** ** Properties *)

Lemma or_default_empty_truthy p : to_boolean (or_default p (VObj ∅)) = true.
Proof. unfold or_default. destruct (to_boolean p) eqn:E; [exact E | reflexivity]. Qed.

Lemma get_prop_truthy o k : to_boolean o = true -> get_prop o k = Ok (prop_of o k).
Proof. destruct o; simpl; intros H; try discriminate; reflexivity. Qed.

Lemma run_bind {A B} (c : M A) (k : A -> M B) st a st' :
  c st = Ok (a, st') -> bind c k st = k a st'.
Proof. intros H. unfold bind. rewrite H. reflexivity. Qed.

Lemma run_js_or_ret a d st x st' :
  a st = Ok (x, st') -> js_or a (ret d) st = Ok (or_default x d, st').
Proof.
  intros H. unfold js_or. rewrite (run_bind _ _ _ _ _ H).
  unfold or_default. destruct (to_boolean x); reflexivity.
Qed.

Lemma run_js_or_pure a b st x y st' :
  a st = Ok (x, st') -> b st' = Ok (y, st') ->
  js_or a b st = Ok (or_default x y, st').
Proof.
  intros Ha Hb. unfold js_or. rewrite (run_bind _ _ _ _ _ Ha).
  unfold or_default. destruct (to_boolean x); [reflexivity | exact Hb].
Qed.

Lemma run_linkHeaders_at k st lh :
  this st !! "linkHeaders" = Some lh -> to_boolean lh = true ->
  linkHeaders_at k st = Ok (prop_of lh k, st).
Proof.
  intros Hl Ht. unfold linkHeaders_at, bind, get_this, lift.
  rewrite Hl. simpl. rewrite (get_prop_truthy _ _ Ht). reflexivity.
Qed.

Tactic Notation "run_with" tactic3(tac) := erewrite run_bind by tac; cbn [this reads app].

Section Properties.

Variable w : webUtil.t.

Lemma parseAllowedMethods_xhr x m st :
  parseAllowedMethods w (VXhr x) m st =
  match allowed_result w x m with
  | Ok am => Ok (am, mkState (this st) (reads st ++ allowed_reads m))
  | Throw e => Throw e
  end.
Proof.
  unfold parseAllowedMethods, allowed_result, allowed_reads.
  destruct (strict_eq_str m "get").
  - unfold ret. rewrite app_nil_r. destruct st; reflexivity.
  - unfold bind, call_getResponseHeader, lift. simpl.
    destruct (webUtil.parseAllowedMethods w _ _); [|reflexivity].
    rewrite <- app_assoc. reflexivity.
Qed.

Lemma SolidResponse_falsy xhrResponse method :
  to_boolean xhrResponse = false ->
  new_SolidResponse w xhrResponse method = Ok (mkState degraded_view []).
Proof.
  intros H. unfold new_SolidResponse, SolidResponse. rewrite H. reflexivity.
Qed.

Lemma SolidResponse_xhr x method p m am :
  webUtil.parseLinkHeader w (header_value x "Link") = Ok p ->
  normalized_method method = Ok m ->
  allowed_result w x m = Ok am ->
  new_SolidResponse w (VXhr x) method =
  Ok (mkState (full_view x p m am)
              (["Link"] ++ allowed_reads m ++ ["Location"; "User"; "Updates-Via"])).
Proof.
  intros Hp Hm Ham.
  pose proof (or_default_empty_truthy p) as Hl.
  unfold new_SolidResponse, SolidResponse.
  change (negb (to_boolean (VXhr x))) with false. cbv iota.
  run_with reflexivity.
  run_with (apply run_js_or_ret; unfold lift; rewrite Hp; reflexivity).
  run_with reflexivity.
  run_with (unfold lift; rewrite Hm; reflexivity).
  run_with reflexivity.
  run_with (apply run_linkHeaders_at; [reflexivity | exact Hl]).
  run_with reflexivity.
  run_with (rewrite parseAllowedMethods_xhr, Ham; reflexivity).
  run_with reflexivity.
  run_with (eapply run_js_or_pure; apply run_linkHeaders_at; first [exact Hl | reflexivity]).
  run_with reflexivity.
  run_with (apply run_linkHeaders_at; [reflexivity | exact Hl]).
  run_with reflexivity.
  run_with (eapply run_js_or_pure; reflexivity).
  run_with reflexivity.
  run_with (apply run_js_or_ret; reflexivity).
  run_with reflexivity.
  run_with (apply run_js_or_ret; reflexivity).
  run_with reflexivity.
  unfold set_this. cbn [this reads app].
  rewrite <- !app_assoc. reflexivity.
Qed.

Lemma new_SolidResponse_inv xhrResponse method st :
  new_SolidResponse w xhrResponse method = Ok st ->
  (to_boolean xhrResponse = false /\ st = mkState degraded_view []) \/
  (exists x p m am,
      xhrResponse = VXhr x /\
      webUtil.parseLinkHeader w (header_value x "Link") = Ok p /\
      normalized_method method = Ok m /\
      allowed_result w x m = Ok am /\
      st = mkState (full_view x p m am)
                   (["Link"] ++ allowed_reads m ++ ["Location"; "User"; "Updates-Via"])).
Proof.
  intros H.
  destruct (to_boolean xhrResponse) eqn:Ht.
  - right.
    destruct xhrResponse as [| |b|n|s|props|x];
      try discriminate Ht; try (unfold new_SolidResponse, SolidResponse in H;
                                rewrite Ht in H; discriminate H).
    exists x.
    destruct (webUtil.parseLinkHeader w (header_value x "Link")) as [p|e] eqn:Hp.
    + destruct (normalized_method method) as [m|e] eqn:Hm.
      * destruct (allowed_result w x m) as [am|e] eqn:Ham.
        -- rewrite (SolidResponse_xhr _ _ _ _ _ Hp Hm Ham) in H.
           injection H as <-. exists p, m, am. auto.
        -- exfalso. revert H.
           pose proof (or_default_empty_truthy p) as Hl.
           unfold new_SolidResponse, SolidResponse.
           change (negb (to_boolean (VXhr x))) with false. cbv iota.
           run_with reflexivity.
           run_with (apply run_js_or_ret; unfold lift; rewrite Hp; reflexivity).
           run_with reflexivity.
           run_with (unfold lift; rewrite Hm; reflexivity).
           run_with reflexivity.
           run_with (apply run_linkHeaders_at; [reflexivity | exact Hl]).
           run_with reflexivity.
           unfold bind at 1. rewrite parseAllowedMethods_xhr, Ham. discriminate.
      * exfalso. revert H.
        unfold new_SolidResponse, SolidResponse.
        change (negb (to_boolean (VXhr x))) with false. cbv iota.
        run_with reflexivity.
        run_with (apply run_js_or_ret; unfold lift; rewrite Hp; reflexivity).
        run_with reflexivity.
        unfold bind at 1, lift. rewrite Hm. discriminate.
    + exfalso. revert H.
      unfold new_SolidResponse, SolidResponse.
      change (negb (to_boolean (VXhr x))) with false. cbv iota.
      run_with reflexivity.
      unfold bind at 1, js_or, bind, lift. rewrite Hp. discriminate.
  - left. rewrite (SolidResponse_falsy _ method Ht) in H. injection H as <-. auto.
Qed.

End Properties.

(** *** The fields of a constructed view *)

Section Fields.

Variables (x : XMLHttpRequest value) (p m am : value) (r : list string).

Lemma full_view_linkHeaders : field (mkState (full_view x p m am) r) "linkHeaders" = or_default p (VObj ∅).
Proof. reflexivity. Qed.

Lemma full_view_method : field (mkState (full_view x p m am) r) "method" = m.
Proof. reflexivity. Qed.

Lemma full_view_allowedMethods : field (mkState (full_view x p m am) r) "allowedMethods" = am.
Proof. reflexivity. Qed.

Lemma full_view_meta :
  field (mkState (full_view x p m am) r) "meta" =
  or_default (prop_of (or_default p (VObj ∅)) "meta")
             (prop_of (or_default p (VObj ∅)) "describedBy").
Proof. reflexivity. Qed.

Lemma full_view_user :
  field (mkState (full_view x p m am) r) "user" = or_default (header_value x "User") (VStr "").
Proof. reflexivity. Qed.

Lemma full_view_websocket :
  field (mkState (full_view x p m am) r) "websocket" = or_default (header_value x "Updates-Via") (VStr "").
Proof. reflexivity. Qed.

Lemma full_view_xhr : this (mkState (full_view x p m am) r) !! "xhr" = Some (VXhr x).
Proof. reflexivity. Qed.

End Fields.

Lemma degraded_view_xhr : degraded_view !! "xhr" = Some VNull.
Proof. reflexivity. Qed.

(** *** The query methods on a view that holds a response, or none *)

Lemma contentType_xhr st x :
  this st !! "xhr" = Some (VXhr x) ->
  contentType st =
  Ok (header_value x "Content-Type", mkState (this st) (reads st ++ ["Content-Type"])).
Proof. intros H. unfold contentType, bind, get_this. rewrite H. reflexivity. Qed.

Lemma contentType_null st :
  this st !! "xhr" = Some VNull -> contentType st = Ok (VNull, st).
Proof. intros H. unfold contentType, bind, get_this. rewrite H. reflexivity. Qed.

Lemma raw_xhr st x :
  this st !! "xhr" = Some (VXhr x) -> raw st = Ok (response x, st).
Proof. intros H. unfold raw, bind, get_this. rewrite H. reflexivity. Qed.

Lemma raw_null st :
  this st !! "xhr" = Some VNull -> raw st = Ok (VNull, st).
Proof. intros H. unfold raw, bind, get_this. rewrite H. reflexivity. Qed.

Lemma run_get_this k st v : this st !! k = Some v -> get_this k st = Ok (v, st).
Proof. intros H. unfold get_this. rewrite H. reflexivity. Qed.

Lemma run_js_and a b st x st' :
  a st = Ok (x, st') ->
  js_and a b st = if to_boolean x then b st' else Ok (x, st').
Proof.
  intros H. unfold js_and. rewrite (run_bind _ _ _ _ _ H).
  destruct (to_boolean x); reflexivity.
Qed.

Lemma xhr_status_xhr st x :
  this st !! "xhr" = Some (VXhr x) -> xhr_status st = Ok (VNum (status x), st).
Proof.
  intros H. unfold xhr_status. rewrite (run_bind _ _ _ _ _ (run_get_this _ _ _ H)).
  reflexivity.
Qed.

Lemma exists_xhr st x :
  this st !! "xhr" = Some (VXhr x) ->
  exists_ st = Ok (VBool (Z.leb 200 (status x) && Z.ltb (status x) 400), st).
Proof.
  intros H. pose proof (xhr_status_xhr _ _ H) as Hs.
  assert (Hge : js_and (get_this "xhr") (let* s := xhr_status in lift (js_ge s 200)) st
                = Ok (VBool (Z.leb 200 (status x)), st)).
  { rewrite (run_js_and _ _ _ _ _ (run_get_this _ _ _ H)).
    cbn [to_boolean]. rewrite (run_bind _ _ _ _ _ Hs). reflexivity. }
  unfold exists_. rewrite (run_js_and _ _ _ _ _ Hge). cbn [to_boolean].
  destruct (Z.leb 200 (status x)); [|reflexivity].
  rewrite (run_bind _ _ _ _ _ Hs). reflexivity.
Qed.

(** The conjunction stops at a falsy [this.xhr], whatever follows it. *)
Lemma js_and_short_circuit st v b c :
  this st !! "xhr" = Some v -> to_boolean v = false ->
  js_and (js_and (get_this "xhr") b) c st = Ok (v, st).
Proof.
  intros H Hv.
  assert (Hin : js_and (get_this "xhr") b st = Ok (v, st)).
  { rewrite (run_js_and _ _ _ _ _ (run_get_this _ _ _ H)), Hv. reflexivity. }
  rewrite (run_js_and _ _ _ _ _ Hin), Hv. reflexivity.
Qed.

Lemma exists_null st :
  this st !! "xhr" = Some VNull -> exists_ st = Ok (VNull, st).
Proof. intros H. apply js_and_short_circuit; [exact H | reflexivity]. Qed.

Lemma isLoggedIn_user st : isLoggedIn st = Ok (field st "user", st).
Proof. reflexivity. Qed.

(** *** The parsers of the specification never fail *)

Lemma WebUtilSpec_total : parsers_total WebUtilSpec.impl.
Proof.
  split.
  - intros link. destruct link; eexists; reflexivity.
  - intros allow acceptPatch. eexists. reflexivity.
Qed.

(** *** The parsers of the specification on its own examples *)

Example parseLinkHeader_acl :
  WebUtilSpec.parseLinkHeader
    (VStr ("<https://ex.org/foo.acl>; rel=" ++ String WebUtilSpec.dquote "acl"
           ++ String WebUtilSpec.dquote ""))
  = Ok (VObj {[ "acl" := VStr "https://ex.org/foo.acl" ]}).
Proof. reflexivity. Qed.

Example parseLinkHeader_absent :
  WebUtilSpec.parseLinkHeader VNull = Ok (VObj ∅).
Proof. reflexivity. Qed.

Example parseAllowedMethods_allow :
  WebUtilSpec.parseAllowedMethods (VStr "GET, PUT") VNull
  = Ok (VObj (<["put" := VBool true]> {[ "get" := VBool true ]})).
Proof. reflexivity. Qed.

Example parseAllowedMethods_patch :
  WebUtilSpec.parseAllowedMethods (VStr "GET, PUT") (VStr "application/sparql-update")
  = Ok (VObj (<["patch" := VBool true]>
                (<["put" := VBool true]> {[ "get" := VBool true ]}))).
Proof. reflexivity. Qed.

(** *** Outside the documented parameter domain *)

(** A truthy value that is not an XHR object has no [getResponseHeader]
    method: the first header read raises. *)
Remark SolidResponse_raises_on_non_response w :
  new_SolidResponse w (VBool true) (VStr "GET")
  = Throw (TypeError "getResponseHeader is not a function").
Proof. reflexivity. Qed.

(** A truthy verb that is not a string has no [toLowerCase] method. *)
Remark SolidResponse_raises_on_non_string_verb :
  new_SolidResponse WebUtilSpec.impl (sample_xhr [] 200) (VNum 5)
  = Throw (TypeError "toLowerCase is not a function").
Proof. reflexivity. Qed.

(** Every spelling of the verb [GET] is stored as ['get']. *)
Remark lower_string_get_cases :
  Forall (fun s => lower_string s = "get")
         ["get"; "geT"; "gEt"; "gET"; "Get"; "GeT"; "GEt"; "GET"].
Proof. repeat constructor. Qed.

(** ** The claims *)

(** C1.  Construction is total on the parameter domain the constructor
    documents (an XHR object or nothing, a verb string or nothing), given
    header parsers that never fail: it returns a view and never raises,
    whatever headers the response lacks.  When the response is falsy the
    view is the degraded one, with [xhr = null], [user = ''] and
    [method = null], and no header was read. *)
Theorem SolidResponse_total (w : webUtil.t) (xhrResponse method : value) :
  is_response xhrResponse = true ->
  is_verb method = true ->
  parsers_total w ->
  (exists st, new_SolidResponse w xhrResponse method = Ok st) /\
  (to_boolean xhrResponse = false ->
   exists st,
     new_SolidResponse w xhrResponse method = Ok st /\
     this st = degraded_view /\
     field st "xhr" = VNull /\ field st "user" = VStr "" /\ field st "method" = VNull /\
     reads st = []).
Proof.
  intros Hr Hv [Hlink Hallow]. split.
  - destruct (to_boolean xhrResponse) eqn:Ht.
    + destruct xhrResponse as [| |b|n|s|props|x]; simpl in Hr, Ht;
        try discriminate Ht; try discriminate Hr;
        try (rewrite Ht in Hr; discriminate Hr).
      destruct (Hlink (header_value x "Link")) as [p Hp].
      assert (Hm : exists m, normalized_method method = Ok m).
      { unfold normalized_method.
        destruct (to_boolean method) eqn:Hb; [|eauto].
        destruct method; simpl in Hv, Hb; try discriminate Hb; try discriminate Hv;
          try (rewrite Hb in Hv; discriminate Hv).
        simpl. eauto. }
      destruct Hm as [m Hm].
      assert (Ha : exists am, allowed_result w x m = Ok am).
      { unfold allowed_result. destruct (strict_eq_str m "get"); eauto. }
      destruct Ha as [am Ha].
      eexists. apply (SolidResponse_xhr w x method p m am Hp Hm Ha).
    + eexists. apply SolidResponse_falsy, Ht.
  - intros Ht. eexists. split; [apply SolidResponse_falsy, Ht|].
    repeat split; reflexivity.
Qed.

Lemma SolidResponse_total_witness :
  is_response (sample_xhr [] 200) = true /\
  is_verb (VStr "GET") = true /\
  parsers_total WebUtilSpec.impl /\
  exists st, new_SolidResponse WebUtilSpec.impl (sample_xhr [] 200) (VStr "GET") = Ok st.
Proof.
  split; [reflexivity|]. split; [reflexivity|]. split; [exact WebUtilSpec_total|].
  exact (proj1 (SolidResponse_total WebUtilSpec.impl (sample_xhr [] 200) (VStr "GET")
                  eq_refl eq_refl WebUtilSpec_total)).
Defined.

(** C2.  A view whose stored verb is ['get'] has an empty [allowedMethods],
    and neither [Allow] nor [Accept-Patch] was read; for a view with any
    other stored verb, [allowedMethods] is what the parser returns for
    those two headers.  The stored verb of a view built from a response is
    the lower-cased original verb, so this covers every letter case of
    the original verb. *)
Theorem allowedMethods_by_verb (w : webUtil.t) (xhrResponse method : value) (st : state) :
  new_SolidResponse w xhrResponse method = Ok st ->
  (field st "method" = VStr "get" ->
   field st "allowedMethods" = VObj ∅ /\
   ~ In "Allow" (reads st) /\ ~ In "Accept-Patch" (reads st)) /\
  (forall m, field st "method" = VStr m -> m <> "get" ->
   exists x, xhrResponse = VXhr x /\
     webUtil.parseAllowedMethods w (header_value x "Allow") (header_value x "Accept-Patch")
     = Ok (field st "allowedMethods")) /\
  (forall s, to_boolean xhrResponse = true -> method = VStr s ->
   field st "method" = VStr (lower_string s) /\
   (lower_string s = "get" -> field st "allowedMethods" = VObj ∅)).
Proof.
  intros H.
  destruct (new_SolidResponse_inv w _ _ _ H)
    as [[Ht Hst] | (x & p & m & am & Hx & Hp & Hm & Ha & Hst)]; clear H; subst.
  - split; [intros Hg; discriminate Hg|].
    split; [intros m Hm _; discriminate Hm|].
    intros s Hs. rewrite Ht in Hs. discriminate Hs.
  - rewrite full_view_method, full_view_allowedMethods. cbn [reads].
    assert (Hget : m = VStr "get" -> am = VObj ∅ /\ allowed_reads m = []).
    { intros ->. unfold allowed_result, allowed_reads in *. simpl in *.
      injection Ha as <-. auto. }
    split; [|split].
    + intros Hg. destruct (Hget Hg) as [-> ->]. split; [reflexivity|].
      cbn. split; intros [E|[E|[E|[E|[]]]]]; discriminate E.
    + intros m' -> Hne. exists x. split; [reflexivity|].
      unfold allowed_result in Ha. simpl in Ha.
      destruct (String.eqb_spec m' "get") as [E|E]; [contradiction|exact Ha].
    + intros s _ Hs. subst method.
      assert (Hl : m = VStr (lower_string s)).
      { unfold normalized_method in Hm. simpl in Hm.
        destruct (String.eqb_spec s "") as [E|E]; simpl in Hm;
          injection Hm as <-; [rewrite E|]; reflexivity. }
      subst m.
      split; [reflexivity|].
      intros E. rewrite E in Hget. apply Hget. reflexivity.
Qed.

Lemma allowedMethods_by_verb_witness :
  let hdrs := [("Allow", "GET, PUT"); ("Accept-Patch", "application/sparql-update")] in
  exists st,
    new_SolidResponse WebUtilSpec.impl (sample_xhr hdrs 200) (VStr "GeT") = Ok st /\
    field st "method" = VStr "get" /\
    field st "allowedMethods" = VObj ∅.
Proof.
  intros hdrs.
  pose proof (SolidResponse_xhr WebUtilSpec.impl (sample_record hdrs 200) (VStr "GeT")
                (VObj ∅) (VStr "get") (VObj ∅) eq_refl eq_refl eq_refl) as H.
  eexists. split; [exact H|].
  split; [apply full_view_method|].
  exact (proj1 (proj1 (allowedMethods_by_verb _ _ _ _ H) (full_view_method _ _ _ _ _))).
Defined.

(** C3.  On a view that holds a response, [exists()] is the Boolean
    [200 <= status < 400]: [true] for 200, 204 and 301, [false] for 404 and
    500.  On the view built without a response it is [null], which is not
    the Boolean [false] the method documents. *)
Theorem exists_on_status_codes :
  (forall w x method st,
      new_SolidResponse w (VXhr x) method = Ok st ->
      exists_ st = Ok (VBool (Z.leb 200 (status x) && Z.ltb (status x) 400), st)) /\
  (forall code, In code [200; 204; 301] -> Z.leb 200 code && Z.ltb code 400 = true) /\
  (forall code, In code [404; 500] -> Z.leb 200 code && Z.ltb code 400 = false) /\
  (forall w, exists st,
      new_SolidResponse w VNull (VStr "GET") = Ok st /\
      exists_ st = Ok (VNull, st) /\
      exists_ st <> Ok (VBool false, st)).
Proof.
  split; [|split; [|split]].
  - intros w x method st H.
    destruct (new_SolidResponse_inv _ _ _ _ H)
      as [[Ht _] | (x' & p & m & am & Hx & _ & _ & _ & Hst)]; [discriminate Ht|].
    injection Hx as <-. subst st.
    apply exists_xhr, full_view_xhr.
  - intros code [<-|[<-|[<-|[]]]]; reflexivity.
  - intros code [<-|[<-|[]]]; reflexivity.
  - intros w. eexists. split; [apply SolidResponse_falsy; reflexivity|].
    rewrite (exists_null (mkState degraded_view []) degraded_view_xhr).
    split; [reflexivity|discriminate].
Qed.

Lemma exists_on_status_codes_witness :
  exists st,
    new_SolidResponse WebUtilSpec.impl (sample_xhr [] 301) (VStr "GET") = Ok st /\
    exists_ st = Ok (VBool true, st).
Proof.
  pose proof (SolidResponse_xhr WebUtilSpec.impl (sample_record [] 301) (VStr "GET")
                (VObj ∅) (VStr "get") (VObj ∅) eq_refl eq_refl eq_refl) as H.
  eexists. split; [exact H|].
  exact (proj1 exists_on_status_codes _ _ _ _ H).
Defined.

(** C4.  On a view built from a response, [meta] is [linkHeaders['meta']]
    when that entry is truthy and [linkHeaders['describedBy']] otherwise;
    when the [Link] header parses to the single relation [describedBy]
    with target [a], [meta] is [a]. *)
Theorem meta_describedBy_fallback
    (w : webUtil.t) (xhrResponse method : value) (st : state) :
  new_SolidResponse w xhrResponse method = Ok st ->
  to_boolean xhrResponse = true ->
  let links := field st "linkHeaders" in
  get_prop links "meta" = Ok (prop_of links "meta") /\
  get_prop links "describedBy" = Ok (prop_of links "describedBy") /\
  (to_boolean (prop_of links "meta") = true -> field st "meta" = prop_of links "meta") /\
  (to_boolean (prop_of links "meta") = false ->
   field st "meta" = prop_of links "describedBy") /\
  (forall x a,
      xhrResponse = VXhr x ->
      webUtil.parseLinkHeader w (header_value x "Link")
      = Ok (VObj {[ "describedBy" := VStr a ]}) ->
      field st "meta" = VStr a).
Proof.
  intros H Ht.
  destruct (new_SolidResponse_inv _ _ _ _ H)
    as [[Hf _] | (x & p & m & am & Hx & Hp & _ & _ & Hst)];
    [rewrite Hf in Ht; discriminate Ht|].
  subst st xhrResponse. cbv zeta.
  rewrite full_view_linkHeaders, full_view_meta.
  set (links := or_default p (VObj ∅)).
  assert (Hl : to_boolean links = true) by apply or_default_empty_truthy.
  split; [apply get_prop_truthy, Hl|].
  split; [apply get_prop_truthy, Hl|].
  split; [|split].
  - intros E. unfold or_default at 1. rewrite E. reflexivity.
  - intros E. unfold or_default at 1. rewrite E. reflexivity.
  - intros x' a Hx' Hp'. injection Hx' as <-.
    rewrite Hp in Hp'. injection Hp' as Hp'.
    subst links p. reflexivity.
Qed.

Lemma meta_describedBy_fallback_witness :
  exists st,
    new_SolidResponse WebUtilSpec.impl
      (sample_xhr [("Link", describedBy_link)] 200) (VStr "GET") = Ok st /\
    to_boolean (sample_xhr [("Link", describedBy_link)] 200) = true /\
    field st "meta" = VStr "a".
Proof.
  pose proof (SolidResponse_xhr WebUtilSpec.impl
                (sample_record [("Link", describedBy_link)] 200) (VStr "GET")
                (VObj {[ "describedBy" := VStr "a" ]}) (VStr "get") (VObj ∅)
                eq_refl eq_refl eq_refl) as H.
  eexists. split; [exact H|]. split; [reflexivity|].
  exact (proj2 (proj2 (proj2 (proj2
           (meta_describedBy_fallback _ _ _ _ H eq_refl))))
           (sample_record [("Link", describedBy_link)] 200) "a" eq_refl eq_refl).
Defined.

(** C5, as the code has it.  A view built without a response carries
    [xhr], [user] and [method] and nothing else: [linkHeaders] is never
    assigned and reads as [undefined]. *)
Theorem linkHeaders_unset_without_response (w : webUtil.t) (xhrResponse method : value) :
  to_boolean xhrResponse = false ->
  exists st,
    new_SolidResponse w xhrResponse method = Ok st /\
    this st !! "linkHeaders" = None /\
    field st "linkHeaders" = VUndefined /\
    (forall k, is_Some (this st !! k) <-> k = "xhr" \/ k = "user" \/ k = "method").
Proof.
  intros Ht. eexists. split; [apply SolidResponse_falsy, Ht|].
  split; [reflexivity|]. split; [reflexivity|].
  intros k. cbn [this]. unfold degraded_view.
  rewrite !lookup_insert_is_Some, lookup_empty.
  pose proof (@is_Some_None value) as Hn.
  split.
  - intros [E | [_ [E | [_ [E | [_ E]]]]]]; [auto .. | contradiction].
  - intros [E | [E | E]]; subst k.
    + right. split; [discriminate|]. right. split; [discriminate|]. left. reflexivity.
    + right. split; [discriminate|]. left. reflexivity.
    + left. reflexivity.
Qed.

Lemma linkHeaders_unset_without_response_witness :
  to_boolean VNull = false /\
  exists st,
    new_SolidResponse WebUtilSpec.impl VNull (VStr "GET") = Ok st /\
    field st "linkHeaders" = VUndefined.
Proof.
  split; [reflexivity|].
  destruct (linkHeaders_unset_without_response WebUtilSpec.impl VNull (VStr "GET") eq_refl)
    as (st & H & _ & Hf & _).
  exists st. split; [exact H | exact Hf].
Defined.

(** The claim C5 as it is written fails: the view built from [null] has no
    empty map under [linkHeaders]. *)
Lemma linkHeaders_empty_without_response_fails :
  ~ (forall st,
        new_SolidResponse WebUtilSpec.impl VNull (VStr "GET") = Ok st ->
        field st "linkHeaders" = VObj ∅).
Proof.
  intros H. specialize (H (mkState degraded_view []) eq_refl). discriminate H.
Qed.

(** C6.  [isLoggedIn()] hands back the [user] field itself, with no check
    of its shape: the [User] header when it is a non-empty string, and the
    empty string otherwise.  The result is truthy exactly when the header
    is non-empty, but it is a string, never the Boolean the method
    documents. *)
Theorem isLoggedIn_returns_user_string :
  (forall st, isLoggedIn st = Ok (field st "user", st)) /\
  (forall w x method st,
      new_SolidResponse w (VXhr x) method = Ok st ->
      exists u,
        isLoggedIn st = Ok (VStr u, st) /\
        u = default "" (getResponseHeader x "User") /\
        (to_boolean (VStr u) = true <-> u <> "")) /\
  (exists st,
      new_SolidResponse WebUtilSpec.impl (sample_xhr [("User", "alice")] 200) (VStr "GET")
      = Ok st /\
      isLoggedIn st = Ok (VStr "alice", st) /\
      isLoggedIn st <> Ok (VBool true, st)) /\
  (exists st,
      new_SolidResponse WebUtilSpec.impl (sample_xhr [] 200) (VStr "GET") = Ok st /\
      isLoggedIn st = Ok (VStr "", st) /\
      isLoggedIn st <> Ok (VBool false, st)).
Proof.
  split; [intros st; reflexivity|].
  split; [|split].
  - intros w x method st H.
    destruct (new_SolidResponse_inv _ _ _ _ H)
      as [[Ht _] | (x' & p & m & am & Hx & _ & _ & _ & Hst)]; [discriminate Ht|].
    injection Hx as <-. subst st.
    rewrite isLoggedIn_user, full_view_user.
    unfold header_value, or_default.
    destruct (getResponseHeader x "User") as [s|]; simpl.
    + destruct (String.eqb_spec s "") as [E|E]; simpl.
      * exists "". subst s. split; [reflexivity|]. split; [reflexivity|].
        split; [discriminate | intros C; contradiction C; reflexivity].
      * exists s. split; [reflexivity|]. split; [reflexivity|].
        destruct (String.eqb_spec s ""); [contradiction|]. split; auto.
    + exists "". split; [reflexivity|]. split; [reflexivity|].
      split; [discriminate | intros C; contradiction C; reflexivity].
  - pose proof (SolidResponse_xhr WebUtilSpec.impl (sample_record [("User", "alice")] 200)
                  (VStr "GET") (VObj ∅) (VStr "get") (VObj ∅) eq_refl eq_refl eq_refl) as H.
    eexists. split; [exact H|]. split; [reflexivity|]. discriminate.
  - pose proof (SolidResponse_xhr WebUtilSpec.impl (sample_record [] 200)
                  (VStr "GET") (VObj ∅) (VStr "get") (VObj ∅) eq_refl eq_refl eq_refl) as H.
    eexists. split; [exact H|]. split; [reflexivity|]. discriminate.
Qed.

Lemma isLoggedIn_returns_user_string_witness :
  exists st,
    new_SolidResponse WebUtilSpec.impl (sample_xhr [("User", "alice")] 200) (VStr "GET")
    = Ok st /\
    isLoggedIn st = Ok (VStr "alice", st).
Proof.
  pose proof (SolidResponse_xhr WebUtilSpec.impl (sample_record [("User", "alice")] 200)
                (VStr "GET") (VObj ∅) (VStr "get") (VObj ∅) eq_refl eq_refl eq_refl) as H.
  eexists. split; [exact H|].
  destruct (proj1 (proj2 isLoggedIn_returns_user_string) _ _ _ _ H) as (u & Hu & -> & _).
  exact Hu.
Defined.

(** C7.  [contentType()] is the answer of the response to
    [getResponseHeader('Content-Type')] when the view holds a response and
    [null] otherwise; [raw()] is the [response] of the XHR object when the
    view holds a response and [null] otherwise. *)
Theorem contentType_raw_passthrough
    (w : webUtil.t) (xhrResponse method : value) (st : state) :
  new_SolidResponse w xhrResponse method = Ok st ->
  (to_boolean xhrResponse = true ->
   exists x,
     xhrResponse = VXhr x /\
     contentType st =
     Ok (header_value x "Content-Type", mkState (this st) (reads st ++ ["Content-Type"])) /\
     raw st = Ok (response x, st)) /\
  (to_boolean xhrResponse = false ->
   contentType st = Ok (VNull, st) /\ raw st = Ok (VNull, st)).
Proof.
  intros H.
  destruct (new_SolidResponse_inv _ _ _ _ H)
    as [[Ht Hst] | (x & p & m & am & Hx & _ & _ & _ & Hst)]; subst st.
  - split; [intros C; rewrite Ht in C; discriminate C|]. intros _.
    split; [apply contentType_null | apply raw_null]; reflexivity.
  - subst xhrResponse. split; [|intros C; discriminate C]. intros _.
    exists x. split; [reflexivity|].
    split; [apply contentType_xhr | apply raw_xhr]; apply full_view_xhr.
Qed.

Lemma contentType_raw_passthrough_witness :
  exists st,
    new_SolidResponse WebUtilSpec.impl
      (sample_xhr [("Content-Type", "text/turtle")] 200) (VStr "GET") = Ok st /\
    (exists st', contentType st = Ok (VStr "text/turtle", st')) /\
    raw st = Ok (VStr "body", st).
Proof.
  pose proof (SolidResponse_xhr WebUtilSpec.impl
                (sample_record [("Content-Type", "text/turtle")] 200)
                (VStr "GET") (VObj ∅) (VStr "get") (VObj ∅) eq_refl eq_refl eq_refl) as H.
  eexists. split; [exact H|].
  destruct (proj1 (contentType_raw_passthrough _ _ _ _ H) eq_refl) as (x & Hx & Hc & Hr).
  injection Hx as <-.
  split; [eexists; exact Hc | exact Hr].
Defined.

(** A query run twice: the second call starts where the first one ended. *)
Lemma query_twice (q : M value) (st : state) :
  (forall log, exists r log',
      q (mkState (this st) log) = Ok (r, mkState (this st) log') /\
      forall log2, exists log2',
        q (mkState (this st) log2) = Ok (r, mkState (this st) log2')) ->
  exists r st1 st2,
    q st = Ok (r, st1) /\ this st1 = this st /\
    q st1 = Ok (r, st2) /\ this st2 = this st.
Proof.
  intros H. destruct (H (reads st)) as (r & log' & H1 & H2).
  destruct (H2 log') as (log2' & H3).
  exists r, (mkState (this st) log'), (mkState (this st) log2').
  destruct st as [t l]. cbn [this reads] in *. auto.
Qed.

(** C8.  On a constructed view every query method returns, leaves the
    receiver as it found it, and returns the same result when called
    again. *)
Theorem queries_leave_view_unchanged
    (w : webUtil.t) (xhrResponse method : value) (st : state) (q : M value) :
  new_SolidResponse w xhrResponse method = Ok st ->
  In q queries ->
  exists r st1 st2,
    q st = Ok (r, st1) /\ this st1 = this st /\
    q st1 = Ok (r, st2) /\ this st2 = this st.
Proof.
  intros H Hq. apply query_twice. intros log.
  assert (Hxhr : this st !! "xhr" = Some VNull \/ exists x, this st !! "xhr" = Some (VXhr x)).
  { destruct (new_SolidResponse_inv _ _ _ _ H)
      as [[_ Hst] | (x & p & m & am & _ & _ & _ & _ & Hst)]; subst st.
    - left. reflexivity.
    - right. exists x. apply full_view_xhr. }
  destruct Hq as [<- | [<- | [<- | [<- | []]]]].
  - destruct Hxhr as [Hn | [x Hx]].
    + exists VNull, log. split; [apply contentType_null, Hn|].
      intros log2. exists log2. apply contentType_null, Hn.
    + eexists _, _. split; [apply (contentType_xhr (mkState (this st) log)), Hx|].
      intros log2. eexists. apply (contentType_xhr (mkState (this st) log2)), Hx.
  - destruct Hxhr as [Hn | [x Hx]].
    + exists VNull, log. split; [apply exists_null, Hn|].
      intros log2. exists log2. apply exists_null, Hn.
    + eexists _, log. split; [apply (exists_xhr (mkState (this st) log)), Hx|].
      intros log2. exists log2. apply (exists_xhr (mkState (this st) log2)), Hx.
  - exists (field st "user"), log. split; [reflexivity|].
    intros log2. exists log2. reflexivity.
  - destruct Hxhr as [Hn | [x Hx]].
    + exists VNull, log. split; [apply raw_null, Hn|].
      intros log2. exists log2. apply raw_null, Hn.
    + eexists _, log. split; [apply (raw_xhr (mkState (this st) log)), Hx|].
      intros log2. exists log2. apply (raw_xhr (mkState (this st) log2)), Hx.
Qed.

Lemma queries_leave_view_unchanged_witness :
  exists st,
    new_SolidResponse WebUtilSpec.impl
      (sample_xhr [("Content-Type", "text/turtle")] 200) (VStr "GET") = Ok st /\
    In contentType queries /\
    exists r st1 st2,
      contentType st = Ok (r, st1) /\ this st1 = this st /\
      contentType st1 = Ok (r, st2) /\ this st2 = this st.
Proof.
  pose proof (SolidResponse_xhr WebUtilSpec.impl
                (sample_record [("Content-Type", "text/turtle")] 200)
                (VStr "GET") (VObj ∅) (VStr "get") (VObj ∅) eq_refl eq_refl eq_refl) as H.
  eexists. split; [exact H|].
  split; [left; reflexivity|].
  exact (queries_leave_view_unchanged _ _ _ _ contentType H (or_introl eq_refl)).
Defined.

(** C9.  On a view built from a falsy response, [exists()] returns
    [null]: the conjunction stops at the [null] held in [xhr], whatever its
    other operands are.  [null] is falsy and is not the Boolean [false]. *)
Theorem exists_null_without_response (w : webUtil.t) (xhrResponse method : value) :
  to_boolean xhrResponse = false ->
  exists st,
    new_SolidResponse w xhrResponse method = Ok st /\
    field st "xhr" = VNull /\
    (forall b c, js_and (js_and (get_this "xhr") b) c st = Ok (VNull, st)) /\
    exists_ st = Ok (VNull, st) /\
    to_boolean VNull = false /\
    VNull <> VBool false.
Proof.
  intros Ht. eexists. split; [apply SolidResponse_falsy, Ht|].
  split; [reflexivity|].
  split; [intros b c; apply js_and_short_circuit; reflexivity|].
  split; [apply exists_null; reflexivity|].
  split; [reflexivity | discriminate].
Qed.

Lemma exists_null_without_response_witness :
  to_boolean (VStr "") = false /\
  exists st,
    new_SolidResponse WebUtilSpec.impl (VStr "") (VStr "PUT") = Ok st /\
    exists_ st = Ok (VNull, st).
Proof.
  split; [reflexivity|].
  destruct (exists_null_without_response WebUtilSpec.impl (VStr "") (VStr "PUT") eq_refl)
    as (st & H & _ & _ & He & _).
  exists st. split; [exact H | exact He].
Defined.

(** C10.  On a view built from a response, [user] and [websocket] are
    strings, the empty string when the header is absent; [linkHeaders] is
    never [null] or [undefined], it is a map whenever the parser returns a
    map or nothing, and the empty map whenever the parser returns nothing
    or an empty map. *)
Theorem defaults_by_logical_or
    (w : webUtil.t) (xhrResponse method : value) (st : state) :
  new_SolidResponse w xhrResponse method = Ok st ->
  to_boolean xhrResponse = true ->
  exists x p,
    xhrResponse = VXhr x /\
    webUtil.parseLinkHeader w (header_value x "Link") = Ok p /\
    field st "user" = VStr (default "" (getResponseHeader x "User")) /\
    field st "websocket" = VStr (default "" (getResponseHeader x "Updates-Via")) /\
    field st "linkHeaders" = or_default p (VObj ∅) /\
    field st "linkHeaders" <> VNull /\
    field st "linkHeaders" <> VUndefined /\
    (forall props, p = VObj props -> field st "linkHeaders" = VObj props) /\
    (to_boolean p = false -> field st "linkHeaders" = VObj ∅).
Proof.
  intros H Ht.
  destruct (new_SolidResponse_inv _ _ _ _ H)
    as [[Hf _] | (x & p & m & am & Hx & Hp & _ & _ & Hst)];
    [rewrite Hf in Ht; discriminate Ht|].
  subst st. exists x, p. split; [exact Hx|]. split; [exact Hp|].
  rewrite full_view_user, full_view_websocket, full_view_linkHeaders.
  assert (Hs : forall name,
             or_default (header_value x name) (VStr "")
             = VStr (default "" (getResponseHeader x name))).
  { intros name. unfold header_value, or_default.
    destruct (getResponseHeader x name) as [s|]; [|reflexivity].
    simpl. destruct (String.eqb_spec s "") as [->|_]; reflexivity. }
  split; [apply Hs|]. split; [apply Hs|]. split; [reflexivity|].
  pose proof (or_default_empty_truthy p) as Hl.
  split; [intros E; rewrite E in Hl; discriminate Hl|].
  split; [intros E; rewrite E in Hl; discriminate Hl|].
  split.
  - intros props ->. reflexivity.
  - intros E. unfold or_default. rewrite E. reflexivity.
Qed.

Lemma defaults_by_logical_or_witness :
  exists st,
    new_SolidResponse WebUtilSpec.impl (sample_xhr [] 200) (VStr "GET") = Ok st /\
    to_boolean (sample_xhr [] 200) = true /\
    field st "user" = VStr "" /\
    field st "websocket" = VStr "" /\
    field st "linkHeaders" = VObj ∅.
Proof.
  pose proof (SolidResponse_xhr WebUtilSpec.impl (sample_record [] 200)
                (VStr "GET") (VObj ∅) (VStr "get") (VObj ∅) eq_refl eq_refl eq_refl) as H.
  eexists. split; [exact H|]. split; [reflexivity|].
  destruct (defaults_by_logical_or _ _ _ _ H eq_refl)
    as (x & p & Hx & Hp & Hu & Hw & _ & _ & _ & Hm & _).
  injection Hx as <-. injection Hp as <-.
  split; [exact Hu|]. split; [exact Hw|]. apply Hm. reflexivity.
Defined.

(** ** Further properties of the constructor *)

Lemma strict_eq_str_true v s : strict_eq_str v s = true <-> v = VStr s.
Proof.
  destruct v; simpl; try (split; [discriminate | intros E; discriminate E]).
  destruct (String.eqb_spec s0 s) as [->|Hne]; split; try reflexivity; try discriminate.
  intros E. injection E as E. contradiction.
Qed.

Lemma lower_ascii_idempotent c : lower_ascii (lower_ascii c) = lower_ascii c.
Proof. destruct c as [[] [] [] [] [] [] [] []]; reflexivity. Qed.

Lemma lower_string_idempotent s : lower_string (lower_string s) = lower_string s.
Proof.
  induction s as [|c s IH]; [reflexivity|].
  simpl. rewrite IH, lower_ascii_idempotent. reflexivity.
Qed.

Lemma lower_string_empty s : lower_string s = "" <-> s = "".
Proof. destruct s; simpl; split; intros E; try reflexivity; discriminate E. Qed.

(** What the constructor does with an XHR object, in one equation: the
    [Link] parser runs first, then the verb is lower-cased, then the allowed
    verbs are computed; the first failure is the outcome. *)
Lemma new_SolidResponse_xhr_eq w x method :
  new_SolidResponse w (VXhr x) method =
  match webUtil.parseLinkHeader w (header_value x "Link") with
  | Throw e => Throw e
  | Ok p =>
      match normalized_method method with
      | Throw e => Throw e
      | Ok m =>
          match allowed_result w x m with
          | Throw e => Throw e
          | Ok am =>
              Ok (mkState (full_view x p m am)
                          (["Link"] ++ allowed_reads m ++ ["Location"; "User"; "Updates-Via"]))
          end
      end
  end.
Proof.
  destruct (webUtil.parseLinkHeader w (header_value x "Link")) as [p|e] eqn:Hp.
  - destruct (normalized_method method) as [m|e] eqn:Hm.
    + destruct (allowed_result w x m) as [am|e] eqn:Ham.
      * apply SolidResponse_xhr; assumption.
      * pose proof (or_default_empty_truthy p) as Hl.
        unfold new_SolidResponse, SolidResponse.
        change (negb (to_boolean (VXhr x))) with false. cbv iota.
        run_with reflexivity.
        run_with (apply run_js_or_ret; unfold lift; rewrite Hp; reflexivity).
        run_with reflexivity.
        run_with (unfold lift; rewrite Hm; reflexivity).
        run_with reflexivity.
        run_with (apply run_linkHeaders_at; [reflexivity | exact Hl]).
        run_with reflexivity.
        unfold bind at 1. rewrite parseAllowedMethods_xhr, Ham. reflexivity.
    + unfold new_SolidResponse, SolidResponse.
      change (negb (to_boolean (VXhr x))) with false. cbv iota.
      run_with reflexivity.
      run_with (apply run_js_or_ret; unfold lift; rewrite Hp; reflexivity).
      run_with reflexivity.
      unfold bind at 1, lift. rewrite Hm. reflexivity.
  - unfold new_SolidResponse, SolidResponse.
    change (negb (to_boolean (VXhr x))) with false. cbv iota.
    run_with reflexivity.
    unfold bind at 1, js_or, bind, lift. rewrite Hp. reflexivity.
Qed.

(** The stored verb of a documented verb is a string. *)
Lemma normalized_method_verb method :
  is_verb method = true ->
  exists s, normalized_method method = Ok (VStr s) /\
            (s = "get" <-> exists v, method = VStr v /\ lower_string v = "get").
Proof.
  intros Hv. unfold normalized_method.
  destruct (to_boolean method) eqn:Hb.
  - destruct method; simpl in Hv, Hb; try discriminate Hb; try discriminate Hv;
      try (rewrite Hb in Hv; discriminate Hv).
    exists (lower_string s). split; [reflexivity|]. split.
    + intros E. exists s. auto.
    + intros (v & E & Hg). injection E as <-. exact Hg.
  - exists "". split; [reflexivity|]. split; [discriminate|].
    intros (v & -> & Hg). simpl in Hb.
    destruct v; [discriminate Hg | discriminate Hb].
Qed.

Lemma full_view_acl x p m am r :
  field (mkState (full_view x p m am) r) "acl" = prop_of (or_default p (VObj ∅)) "acl".
Proof. reflexivity. Qed.

Lemma full_view_type x p m am r :
  field (mkState (full_view x p m am) r) "type" = prop_of (or_default p (VObj ∅)) "type".
Proof. reflexivity. Qed.

Lemma full_view_url x p m am r :
  field (mkState (full_view x p m am) r) "url"
  = or_default (header_value x "Location") (VStr (responseURL x)).
Proof. reflexivity. Qed.

(** The view of an XHR object, when the constructor returns one. *)
Lemma new_SolidResponse_xhr_inv w x method st :
  new_SolidResponse w (VXhr x) method = Ok st ->
  exists p m am,
    webUtil.parseLinkHeader w (header_value x "Link") = Ok p /\
    normalized_method method = Ok m /\
    allowed_result w x m = Ok am /\
    st = mkState (full_view x p m am)
                 (["Link"] ++ allowed_reads m ++ ["Location"; "User"; "Updates-Via"]).
Proof.
  intros H.
  destruct (new_SolidResponse_inv _ _ _ _ H)
    as [[Ht _] | (x' & p & m & am & Hx & Hp & Hm & Ha & Hst)]; [discriminate Ht|].
  injection Hx as <-. exists p, m, am. auto.
Qed.

(** X1.  With an XHR object and a documented verb, the constructor raises
    exactly when the [Link] parser raises, or when the verb is not a
    spelling of [get] and the [Allow] parser raises; it raises the parser's
    own error.  For a spelling of [get] the [Allow] parser cannot make it
    fail. *)
Theorem constructor_raises_exactly (w : webUtil.t) (x : XMLHttpRequest value)
    (method : value) :
  is_verb method = true ->
  (forall e,
      new_SolidResponse w (VXhr x) method = Throw e <->
      webUtil.parseLinkHeader w (header_value x "Link") = Throw e \/
      ((exists p, webUtil.parseLinkHeader w (header_value x "Link") = Ok p) /\
       normalized_method method <> Ok (VStr "get") /\
       webUtil.parseAllowedMethods w (header_value x "Allow") (header_value x "Accept-Patch")
       = Throw e)) /\
  ((exists p, webUtil.parseLinkHeader w (header_value x "Link") = Ok p) ->
   normalized_method method = Ok (VStr "get") ->
   exists st, new_SolidResponse w (VXhr x) method = Ok st).
Proof.
  intros Hv. destruct (normalized_method_verb _ Hv) as (s & Hm & _).
  rewrite new_SolidResponse_xhr_eq, Hm. unfold allowed_result. simpl.
  destruct (webUtil.parseLinkHeader w (header_value x "Link")) as [p|e0].
  - destruct (String.eqb_spec s "get") as [->|Hne].
    + split.
      * intros e. split; [discriminate|].
        intros [E | (_ & Hn & _)]; [discriminate E | contradiction Hn; reflexivity].
      * intros _ _. eauto.
    + split.
      * intros e.
        destruct (webUtil.parseAllowedMethods w _ _) as [am|e1].
        -- split; [discriminate|]. intros [E | (_ & _ & E)]; discriminate E.
        -- split.
           ++ intros E. injection E as <-. right. split; [eauto|]. split; [|reflexivity].
              intros C. injection C as C. contradiction.
           ++ intros [E | (_ & _ & E)]; [discriminate E | injection E as <-; reflexivity].
      * intros _ C. injection C as C. contradiction.
  - split.
    + intros e. split.
      * intros E. injection E as <-. left. reflexivity.
      * intros [E | ((p & C) & _)]; [injection E as <-; reflexivity | discriminate C].
    + intros (p & C). discriminate C.
Qed.

Lemma constructor_raises_exactly_witness :
  is_verb (VStr "PUT") = true /\
  new_SolidResponse throwing_allowed (sample_xhr [] 200) (VStr "PUT")
  = Throw (Thrown (VStr "bad Allow")) /\
  exists st, new_SolidResponse throwing_allowed (sample_xhr [] 200) (VStr "Get") = Ok st.
Proof.
  split; [reflexivity|]. split.
  - apply (proj1 (constructor_raises_exactly throwing_allowed (sample_record [] 200)
                    (VStr "PUT") eq_refl)).
    right. split; [eexists; reflexivity|]. split; [discriminate | reflexivity].
  - apply (proj2 (constructor_raises_exactly throwing_allowed (sample_record [] 200)
                    (VStr "Get") eq_refl)).
    + eexists; reflexivity.
    + reflexivity.
Defined.

(** X2.  A truthy value that is not an XHR object makes the constructor
    raise a [TypeError], whatever the verb and the parsers. *)
Theorem non_response_raises (w : webUtil.t) (v method : value) :
  to_boolean v = true ->
  is_response v = false ->
  exists msg, new_SolidResponse w v method = Throw (TypeError msg).
Proof.
  intros Ht Hr. unfold new_SolidResponse, SolidResponse. rewrite Ht.
  destruct v; simpl in Hr; try discriminate Ht; try discriminate Hr; eexists; reflexivity.
Qed.

Lemma non_response_raises_witness :
  to_boolean (VObj ∅) = true /\ is_response (VObj ∅) = false /\
  exists msg, new_SolidResponse WebUtilSpec.impl (VObj ∅) (VStr "GET") = Throw (TypeError msg).
Proof.
  split; [reflexivity|]. split; [reflexivity|].
  exact (non_response_raises WebUtilSpec.impl (VObj ∅) (VStr "GET") eq_refl eq_refl).
Defined.

(** X3.  A truthy verb that is not a string makes the constructor raise a
    [TypeError] once the [Link] header is parsed; when the [Link] parser
    raises, its error comes first. *)
Theorem non_string_verb_raises (w : webUtil.t) (x : XMLHttpRequest value) (method : value) :
  to_boolean method = true ->
  is_verb method = false ->
  (forall p, webUtil.parseLinkHeader w (header_value x "Link") = Ok p ->
             exists msg, new_SolidResponse w (VXhr x) method = Throw (TypeError msg)) /\
  (forall e, webUtil.parseLinkHeader w (header_value x "Link") = Throw e ->
             new_SolidResponse w (VXhr x) method = Throw e).
Proof.
  intros Ht Hv. rewrite new_SolidResponse_xhr_eq. split.
  - intros p ->. unfold normalized_method. rewrite Ht.
    destruct method; simpl in Hv; try discriminate Ht; try discriminate Hv;
      eexists; reflexivity.
  - intros e ->. reflexivity.
Qed.

Lemma non_string_verb_raises_witness :
  to_boolean (VNum 5) = true /\ is_verb (VNum 5) = false /\
  exists msg,
    new_SolidResponse WebUtilSpec.impl (sample_xhr [] 200) (VNum 5) = Throw (TypeError msg).
Proof.
  split; [reflexivity|]. split; [reflexivity|].
  exact (proj1 (non_string_verb_raises WebUtilSpec.impl (sample_record [] 200) (VNum 5)
                  eq_refl eq_refl) (VObj ∅) eq_refl).
Defined.

(** X4.  The [url] of a view is the [Location] header when that header is
    a non-empty string, and the response URL of the XHR object otherwise;
    it is always a string. *)
Theorem url_location_or_responseURL (w : webUtil.t) (x : XMLHttpRequest value)
    (method : value) (st : state) :
  new_SolidResponse w (VXhr x) method = Ok st ->
  field st "url" =
  VStr (match getResponseHeader x "Location" with
        | Some l => if String.eqb l "" then responseURL x else l
        | None => responseURL x
        end).
Proof.
  intros H. destruct (new_SolidResponse_xhr_inv _ _ _ _ H) as (p & m & am & _ & _ & _ & ->).
  rewrite full_view_url. unfold or_default, header_value.
  destruct (getResponseHeader x "Location") as [l|]; [|reflexivity].
  simpl. destruct (String.eqb l ""); reflexivity.
Qed.

Lemma url_location_or_responseURL_witness :
  exists st1 st2,
    new_SolidResponse WebUtilSpec.impl (sample_xhr [("Location", "/new")] 201) (VStr "POST")
    = Ok st1 /\
    field st1 "url" = VStr "/new" /\
    new_SolidResponse WebUtilSpec.impl (sample_xhr [("Location", "")] 200) (VStr "GET")
    = Ok st2 /\
    field st2 "url" = VStr "https://example.org/doc".
Proof.
  pose proof (SolidResponse_xhr WebUtilSpec.impl (sample_record [("Location", "/new")] 201)
                (VStr "POST") (VObj ∅) (VStr "post") (VObj ∅) eq_refl eq_refl eq_refl) as H1.
  pose proof (SolidResponse_xhr WebUtilSpec.impl (sample_record [("Location", "")] 200)
                (VStr "GET") (VObj ∅) (VStr "get") (VObj ∅) eq_refl eq_refl eq_refl) as H2.
  eexists _, _. split; [exact H1|].
  split; [exact (url_location_or_responseURL _ _ _ _ H1)|].
  split; [exact H2|].
  exact (url_location_or_responseURL _ _ _ _ H2).
Defined.

(** X5.  On a view built from an XHR object, [acl] and [type] are the
    entries of [linkHeaders] under those names, [undefined] when the entry
    is missing; with no [meta] entry, [meta] is the [describedBy] entry;
    with an empty [linkHeaders], [acl], [meta] and [type] are all
    [undefined]. *)
Theorem link_relations_are_lookups (w : webUtil.t) (x : XMLHttpRequest value)
    (method : value) (st : state) :
  new_SolidResponse w (VXhr x) method = Ok st ->
  exists rels_or_value,
    field st "linkHeaders" = rels_or_value /\
    field st "acl" = prop_of rels_or_value "acl" /\
    field st "type" = prop_of rels_or_value "type" /\
    (forall rels, rels_or_value = VObj rels ->
       field st "acl" = default VUndefined (rels !! "acl") /\
       field st "type" = default VUndefined (rels !! "type") /\
       (rels !! "meta" = None ->
        field st "meta" = default VUndefined (rels !! "describedBy"))) /\
    (rels_or_value = VObj ∅ ->
       field st "acl" = VUndefined /\ field st "meta" = VUndefined /\
       field st "type" = VUndefined).
Proof.
  intros H. destruct (new_SolidResponse_xhr_inv _ _ _ _ H) as (p & m & am & _ & _ & _ & ->).
  exists (or_default p (VObj ∅)).
  rewrite full_view_linkHeaders, full_view_acl, full_view_type, full_view_meta.
  split; [reflexivity|]. split; [reflexivity|]. split; [reflexivity|].
  split.
  - intros rels ->. split; [reflexivity|]. split; [reflexivity|].
    intros Hn. simpl. rewrite Hn. reflexivity.
  - intros ->. repeat split; reflexivity.
Qed.

Lemma link_relations_are_lookups_witness :
  exists st,
    new_SolidResponse WebUtilSpec.impl (sample_xhr [("Link", acl_link)] 200) (VStr "GET")
    = Ok st /\
    field st "acl" = VStr "https://ex.org/foo.acl" /\
    field st "type" = VUndefined.
Proof.
  pose proof (SolidResponse_xhr WebUtilSpec.impl (sample_record [("Link", acl_link)] 200)
                (VStr "GET") (VObj {[ "acl" := VStr "https://ex.org/foo.acl" ]})
                (VStr "get") (VObj ∅) eq_refl eq_refl eq_refl) as H.
  eexists. split; [exact H|].
  destruct (link_relations_are_lookups _ _ _ _ H) as (l & Hl & _ & _ & Hrels & _).
  destruct (Hrels {[ "acl" := VStr "https://ex.org/foo.acl" ]}) as (Ha & Ht & _).
  - rewrite <- Hl. reflexivity.
  - split; [exact Ha | exact Ht].
Defined.

(** X6.  When no verb is given the stored verb is the empty string, which
    is not [get]: the [Allow] and [Accept-Patch] headers are read and
    [allowedMethods] is what the parser returns for them. *)
Theorem missing_verb_is_not_get (w : webUtil.t) (x : XMLHttpRequest value)
    (method : value) (st : state) :
  to_boolean method = false ->
  new_SolidResponse w (VXhr x) method = Ok st ->
  field st "method" = VStr "" /\
  webUtil.parseAllowedMethods w (header_value x "Allow") (header_value x "Accept-Patch")
  = Ok (field st "allowedMethods") /\
  In "Allow" (reads st) /\ In "Accept-Patch" (reads st).
Proof.
  intros Hf H.
  destruct (new_SolidResponse_xhr_inv _ _ _ _ H) as (p & m & am & _ & Hm & Ha & ->).
  unfold normalized_method in Hm. rewrite Hf in Hm. injection Hm as <-.
  rewrite full_view_method, full_view_allowedMethods.
  split; [reflexivity|]. split; [exact Ha|].
  cbn. auto.
Qed.

Lemma missing_verb_is_not_get_witness :
  to_boolean VUndefined = false /\
  exists st,
    new_SolidResponse WebUtilSpec.impl (sample_xhr [("Allow", "GET, PUT")] 200) VUndefined
    = Ok st /\
    field st "method" = VStr "" /\
    field st "allowedMethods"
    = VObj (<["put" := VBool true]> {[ "get" := VBool true ]}).
Proof.
  split; [reflexivity|].
  pose proof (SolidResponse_xhr WebUtilSpec.impl (sample_record [("Allow", "GET, PUT")] 200)
                VUndefined (VObj ∅) (VStr "")
                (VObj (<["put" := VBool true]> {[ "get" := VBool true ]}))
                eq_refl eq_refl eq_refl) as H.
  eexists. split; [exact H|].
  destruct (missing_verb_is_not_get _ _ VUndefined _ eq_refl H) as (Hm & Ha & _).
  split; [exact Hm|]. apply full_view_allowedMethods.
Defined.

(** The constructor sees the verb through its stored form only. *)
Lemma new_SolidResponse_by_normal_form w xhrResponse v1 v2 :
  normalized_method v1 = normalized_method v2 ->
  new_SolidResponse w xhrResponse v1 = new_SolidResponse w xhrResponse v2.
Proof.
  intros E.
  destruct (to_boolean xhrResponse) eqn:Ht.
  - destruct xhrResponse as [| |b|n|s|props|x]; try discriminate Ht;
      try (unfold new_SolidResponse, SolidResponse; rewrite Ht; reflexivity).
    rewrite !new_SolidResponse_xhr_eq, E. reflexivity.
  - rewrite !SolidResponse_falsy by exact Ht. reflexivity.
Qed.

(** X7.  The letter case of the verb does not matter: two verbs with the
    same lower-case form give the same outcome, view and header reads
    included.  Likewise any two falsy verbs give the same outcome. *)
Theorem verb_matters_up_to_case (w : webUtil.t) (xhrResponse : value) :
  (forall s1 s2, lower_string s1 = lower_string s2 ->
     new_SolidResponse w xhrResponse (VStr s1) = new_SolidResponse w xhrResponse (VStr s2)) /\
  (forall v1 v2, to_boolean v1 = false -> to_boolean v2 = false ->
     new_SolidResponse w xhrResponse v1 = new_SolidResponse w xhrResponse v2).
Proof.
  split.
  - intros s1 s2 E. apply new_SolidResponse_by_normal_form.
    unfold normalized_method. simpl.
    assert (Hb : String.eqb s1 "" = String.eqb s2 "").
    { destruct (String.eqb_spec s1 "") as [->|H1], (String.eqb_spec s2 "") as [->|H2];
        try reflexivity.
      - simpl in E. symmetry in E. apply (proj1 (lower_string_empty s2)) in E.
        contradiction.
      - simpl in E. apply (proj1 (lower_string_empty s1)) in E. contradiction. }
    rewrite Hb, E. reflexivity.
  - intros v1 v2 H1 H2. apply new_SolidResponse_by_normal_form.
    unfold normalized_method. rewrite H1, H2. reflexivity.
Qed.

Lemma verb_matters_up_to_case_witness :
  lower_string "OPTIONS" = lower_string "Options" /\
  new_SolidResponse WebUtilSpec.impl (sample_xhr [("Allow", "GET")] 200) (VStr "OPTIONS")
  = new_SolidResponse WebUtilSpec.impl (sample_xhr [("Allow", "GET")] 200) (VStr "Options").
Proof.
  split; [reflexivity|].
  exact (proj1 (verb_matters_up_to_case WebUtilSpec.impl (sample_xhr [("Allow", "GET")] 200))
           "OPTIONS" "Options" eq_refl).
Defined.

(** X8.  Wrapping the same XHR object again, with the verb the view stores,
    gives the same view: the stored verb is already in stored form. *)
Theorem rewrap_with_stored_method (w : webUtil.t) (x : XMLHttpRequest value)
    (method : value) (st : state) :
  new_SolidResponse w (VXhr x) method = Ok st ->
  new_SolidResponse w (VXhr x) (field st "method") = Ok st.
Proof.
  intros H.
  destruct (new_SolidResponse_xhr_inv _ _ _ _ H) as (p & m & am & Hp & Hm & Ha & ->).
  rewrite full_view_method.
  apply SolidResponse_xhr; [exact Hp | | exact Ha].
  unfold normalized_method in *.
  destruct (to_boolean method) eqn:Hb.
  - destruct method; try discriminate Hm. simpl in Hm. injection Hm as <-.
    simpl. rewrite lower_string_idempotent.
    destruct (String.eqb_spec (lower_string s) "") as [E|_]; simpl; [rewrite E|];
      reflexivity.
  - injection Hm as <-. reflexivity.
Qed.

Lemma rewrap_with_stored_method_witness :
  exists st,
    new_SolidResponse WebUtilSpec.impl (sample_xhr [("User", "alice")] 200) (VStr "PaTcH")
    = Ok st /\
    field st "method" = VStr "patch" /\
    new_SolidResponse WebUtilSpec.impl (sample_xhr [("User", "alice")] 200) (VStr "patch")
    = Ok st.
Proof.
  pose proof (SolidResponse_xhr WebUtilSpec.impl (sample_record [("User", "alice")] 200)
                (VStr "PaTcH") (VObj ∅) (VStr "patch") (VObj ∅) eq_refl eq_refl eq_refl) as H.
  eexists. split; [exact H|]. split; [reflexivity|].
  exact (rewrap_with_stored_method _ _ _ _ H).
Defined.

(** X9.  The constructor reads no response header twice and none outside
    [Link], [Allow], [Accept-Patch], [Location], [User] and [Updates-Via]
    (so never [Content-Type]); with a response it always reads [Link],
    [Location], [User] and [Updates-Via]. *)
Theorem constructor_header_reads (w : webUtil.t) (xhrResponse method : value) (st : state) :
  new_SolidResponse w xhrResponse method = Ok st ->
  List.NoDup (reads st) /\
  (forall n, In n (reads st) -> In n constructor_headers) /\
  ~ In "Content-Type" (reads st) /\
  (to_boolean xhrResponse = true ->
   forall n, In n ["Link"; "Location"; "User"; "Updates-Via"] -> In n (reads st)).
Proof.
  intros H.
  destruct (new_SolidResponse_inv _ _ _ _ H)
    as [[Ht Hst] | (x & p & m & am & Hx & _ & _ & _ & Hst)]; subst st; cbn [reads].
  - split; [constructor|]. split; [intros n []|]. split; [intros []|].
    intros C. rewrite Ht in C. discriminate C.
  - unfold allowed_reads, constructor_headers.
    destruct (strict_eq_str m "get"); cbn.
    + split; [repeat constructor; cbn; intuition discriminate|].
      split; [intuition|]. split; [intuition discriminate|]. intuition.
    + split; [repeat constructor; cbn; intuition discriminate|].
      split; [intuition|]. split; [intuition discriminate|]. intuition.
Qed.

Lemma constructor_header_reads_witness :
  exists st,
    new_SolidResponse WebUtilSpec.impl (sample_xhr [("Content-Type", "text/turtle")] 200)
      (VStr "PUT") = Ok st /\
    ~ In "Content-Type" (reads st).
Proof.
  pose proof (SolidResponse_xhr WebUtilSpec.impl
                (sample_record [("Content-Type", "text/turtle")] 200)
                (VStr "PUT") (VObj ∅) (VStr "put") (VObj ∅) eq_refl eq_refl eq_refl) as H.
  eexists. split; [exact H|].
  exact (proj1 (proj2 (proj2 (constructor_header_reads _ _ _ _ H)))).
Defined.

(** X10.  The derived fields of a view depend on the response only through
    the six headers the constructor reads and the response URL: two XHR
    objects that agree on those give views that agree on every field but
    [xhr], whatever their status, body and other headers. *)
Theorem derived_fields_depend_on_headers_only
    (w : webUtil.t) (x1 x2 : XMLHttpRequest value) (method : value) (st1 : state) :
  (forall n, In n constructor_headers -> getResponseHeader x1 n = getResponseHeader x2 n) ->
  responseURL x1 = responseURL x2 ->
  new_SolidResponse w (VXhr x1) method = Ok st1 ->
  exists st2,
    new_SolidResponse w (VXhr x2) method = Ok st2 /\
    delete "xhr" (this st1) = delete "xhr" (this st2) /\
    (forall k, k <> "xhr" -> field st1 k = field st2 k) /\
    reads st1 = reads st2.
Proof.
  intros Hh Hu H.
  destruct (new_SolidResponse_xhr_inv _ _ _ _ H) as (p & m & am & Hp & Hm & Ha & ->).
  assert (Hv : forall n, In n constructor_headers -> header_value x1 n = header_value x2 n).
  { intros n Hn. unfold header_value. rewrite (Hh n Hn). reflexivity. }
  assert (Hp2 : webUtil.parseLinkHeader w (header_value x2 "Link") = Ok p).
  { rewrite <- (Hv "Link") by (cbn; auto). exact Hp. }
  assert (Ha2 : allowed_result w x2 m = Ok am).
  { unfold allowed_result in *.
    rewrite <- (Hv "Allow"), <- (Hv "Accept-Patch") by (cbn; auto 10). exact Ha. }
  eexists. split; [apply (SolidResponse_xhr w x2 method p m am Hp2 Hm Ha2)|].
  cbn [this reads].
  assert (Hd : delete "xhr" (full_view x1 p m am) = delete "xhr" (full_view x2 p m am)).
  { unfold full_view. rewrite !delete_insert_eq.
    rewrite (Hv "Updates-Via"), (Hv "User"), (Hv "Location"), Hu by (cbn; auto 10).
    reflexivity. }
  split; [exact Hd|]. split; [|reflexivity].
  intros k Hk. unfold field. cbn [this].
  rewrite <- (lookup_delete_ne (full_view x1 p m am) "xhr" k) by congruence.
  rewrite <- (lookup_delete_ne (full_view x2 p m am) "xhr" k) by congruence.
  rewrite Hd. reflexivity.
Qed.

Lemma derived_fields_depend_on_headers_only_witness :
  exists st1 st2,
    new_SolidResponse WebUtilSpec.impl (sample_xhr [("User", "alice")] 200) (VStr "GET")
    = Ok st1 /\
    new_SolidResponse WebUtilSpec.impl
      (sample_xhr [("User", "alice"); ("Content-Type", "text/turtle")] 404) (VStr "GET")
    = Ok st2 /\
    delete "xhr" (this st1) = delete "xhr" (this st2).
Proof.
  pose proof (SolidResponse_xhr WebUtilSpec.impl (sample_record [("User", "alice")] 200)
                (VStr "GET") (VObj ∅) (VStr "get") (VObj ∅) eq_refl eq_refl eq_refl) as H.
  destruct (derived_fields_depend_on_headers_only WebUtilSpec.impl
              (sample_record [("User", "alice")] 200)
              (sample_record [("User", "alice"); ("Content-Type", "text/turtle")] 404)
              (VStr "GET") _
              ltac:(intros n [<-|[<-|[<-|[<-|[<-|[<-|[]]]]]]]; reflexivity) eq_refl H)
    as (st2 & H2 & Hd & _).
  eexists _, st2. split; [exact H|]. split; [exact H2 | exact Hd].
Defined.

(** X11.  A truthy answer of [isLoggedIn()] or of [exists()] means a
    response was given: the first is then the non-empty [User] header, the
    second is [true] with a status from 200 to 399.  A view built without
    a response answers falsy to both. *)
Theorem truthy_answers_imply_response
    (w : webUtil.t) (xhrResponse method : value) (st : state) :
  new_SolidResponse w xhrResponse method = Ok st ->
  (forall r st', isLoggedIn st = Ok (r, st') -> to_boolean r = true ->
     exists x u, xhrResponse = VXhr x /\ getResponseHeader x "User" = Some u /\
                 u <> "" /\ r = VStr u) /\
  (forall r st', exists_ st = Ok (r, st') -> to_boolean r = true ->
     exists x, xhrResponse = VXhr x /\ (200 <= status x < 400)%Z /\ r = VBool true).
Proof.
  intros H.
  destruct (new_SolidResponse_inv _ _ _ _ H)
    as [[Ht Hst] | (x & p & m & am & Hx & _ & _ & _ & Hst)]; subst st.
  - split.
    + intros r st' Hr Hb. rewrite isLoggedIn_user in Hr. injection Hr as <- _.
      discriminate Hb.
    + intros r st' Hr Hb.
      rewrite (exists_null (mkState degraded_view []) degraded_view_xhr) in Hr.
      injection Hr as <- _. discriminate Hb.
  - subst xhrResponse. split.
    + intros r st' Hr Hb. rewrite isLoggedIn_user, full_view_user in Hr.
      injection Hr as <- _. exists x.
      unfold or_default, header_value in *.
      destruct (getResponseHeader x "User") as [u|]; [|discriminate Hb].
      cbn [to_boolean] in Hb |- *.
      destruct (String.eqb_spec u "") as [E|Hne]; [discriminate Hb|].
      exists u. cbn [negb]. auto.
    + intros r st' Hr Hb. rewrite (exists_xhr _ x (full_view_xhr _ _ _ _ _)) in Hr.
      injection Hr as <- _. exists x. simpl in Hb.
      apply andb_prop in Hb. destruct Hb as [H1 H2].
      apply Z.leb_le in H1. apply Z.ltb_lt in H2.
      split; [reflexivity|]. split; [lia|].
      f_equal. apply andb_true_intro. split; [apply Z.leb_le | apply Z.ltb_lt]; lia.
Qed.

Lemma truthy_answers_imply_response_witness :
  exists st,
    new_SolidResponse WebUtilSpec.impl (sample_xhr [("User", "alice")] 204) (VStr "PUT")
    = Ok st /\
    exists x, sample_xhr [("User", "alice")] 204 = VXhr x /\ (200 <= status x < 400)%Z.
Proof.
  pose proof (SolidResponse_xhr WebUtilSpec.impl (sample_record [("User", "alice")] 204)
                (VStr "PUT") (VObj ∅) (VStr "put") (VObj ∅) eq_refl eq_refl eq_refl) as H.
  eexists. split; [exact H|].
  destruct (proj2 (truthy_answers_imply_response _ _ _ _ H) (VBool true) _
              (exists_xhr _ _ (full_view_xhr _ _ _ _ _)) eq_refl)
    as (x & Hx & Hs & _).
  exists x. split; [exact Hx | exact Hs].
Defined.



(** X13.  The answers of the four query methods depend on the response
    only: two views of the same XHR object, built with different verbs or
    different parsers, answer alike. *)
Theorem queries_depend_on_response_only
    (w1 w2 : webUtil.t) (x : XMLHttpRequest value) (m1 m2 : value)
    (st1 st2 : state) (q : M value) :
  new_SolidResponse w1 (VXhr x) m1 = Ok st1 ->
  new_SolidResponse w2 (VXhr x) m2 = Ok st2 ->
  In q queries ->
  exists r st1' st2', q st1 = Ok (r, st1') /\ q st2 = Ok (r, st2').
Proof.
  intros H1 H2 Hq.
  destruct (new_SolidResponse_xhr_inv _ _ _ _ H1) as (p1 & n1 & a1 & _ & _ & _ & ->).
  destruct (new_SolidResponse_xhr_inv _ _ _ _ H2) as (p2 & n2 & a2 & _ & _ & _ & ->).
  destruct Hq as [<- | [<- | [<- | [<- | []]]]].
  - eexists _, _, _. split; apply contentType_xhr, full_view_xhr.
  - eexists _, _, _. split; apply exists_xhr, full_view_xhr.
  - eexists _, _, _. rewrite !isLoggedIn_user, !full_view_user. split; reflexivity.
  - eexists _, _, _. split; apply raw_xhr, full_view_xhr.
Qed.

Lemma queries_depend_on_response_only_witness :
  exists st1 st2 r st1' st2',
    new_SolidResponse WebUtilSpec.impl (sample_xhr [] 200) (VStr "GET") = Ok st1 /\
    new_SolidResponse throwing_allowed (sample_xhr [] 200) (VStr "get") = Ok st2 /\
    In exists_ queries /\
    exists_ st1 = Ok (r, st1') /\ exists_ st2 = Ok (r, st2').
Proof.
  pose proof (SolidResponse_xhr WebUtilSpec.impl (sample_record [] 200)
                (VStr "GET") (VObj ∅) (VStr "get") (VObj ∅) eq_refl eq_refl eq_refl) as H1.
  pose proof (SolidResponse_xhr throwing_allowed (sample_record [] 200)
                (VStr "get") (VObj ∅) (VStr "get") (VObj ∅) eq_refl eq_refl eq_refl) as H2.
  destruct (queries_depend_on_response_only _ _ _ _ _ _ _ exists_ H1 H2
              (or_intror (or_introl eq_refl))) as (r & st1' & st2' & E1 & E2).
  eexists _, _, r, st1', st2'.
  split; [exact H1|]. split; [exact H2|]. split; [right; left; reflexivity|].
  split; [exact E1 | exact E2].
Defined.

(** X14.  A view built from a response carries exactly the ten fields the
    constructor assigns, the ones whose value is [undefined] included; no
    other property is ever set. *)
Theorem view_has_exactly_its_fields (w : webUtil.t) (x : XMLHttpRequest value)
    (method : value) (st : state) :
  new_SolidResponse w (VXhr x) method = Ok st ->
  forall k, is_Some (this st !! k) <-> In k view_fields.
Proof.
  intros H k.
  destruct (new_SolidResponse_xhr_inv _ _ _ _ H) as (p & m & am & _ & _ & _ & ->).
  cbn [this]. unfold full_view, view_fields.
  rewrite <- elem_of_dom, !dom_insert_L, dom_empty_L.
  rewrite !elem_of_union, !elem_of_singleton, elem_of_empty.
  cbn [In]. split.
  - intros [E|[E|[E|[E|[E|[E|[E|[E|[E|[E|[]]]]]]]]]]]; subst k; tauto.
  - intros [E|[E|[E|[E|[E|[E|[E|[E|[E|[E|[]]]]]]]]]]]; subst k; tauto.
Qed.

Lemma view_has_exactly_its_fields_witness :
  exists st,
    new_SolidResponse WebUtilSpec.impl (sample_xhr [] 200) (VStr "GET") = Ok st /\
    is_Some (this st !! "acl") /\ field st "acl" = VUndefined /\
    ~ is_Some (this st !! "status").
Proof.
  pose proof (SolidResponse_xhr WebUtilSpec.impl (sample_record [] 200)
                (VStr "GET") (VObj ∅) (VStr "get") (VObj ∅) eq_refl eq_refl eq_refl) as H.
  eexists. split; [exact H|].
  split; [apply (proj2 (view_has_exactly_its_fields _ _ _ _ H "acl")); cbn; auto|].
  split; [reflexivity|].
  intros C. apply (proj1 (view_has_exactly_its_fields _ _ _ _ H "status")) in C.
  cbn in C. repeat (destruct C as [C|C]; [discriminate C|]). exact C.
Defined.
